(** * temps: a weather-feed store on SQLAlchemy Core and SQLite

    Shallow embedding of the notebook [temps.ipynb]: the schema catalog
    ([feeders], [temps], [metadata]), [metadata.create_all], [store_packet]
    and [low_by_date], over a small model of the relational store the
    notebook talks to.

    Conventions of the embedding.
    - The persisted database is a finite map from table names to row lists.
    - A Python call that may raise returns a [result]; a call that touches
      the store also returns the persisted database it leaves behind.
    - A reading arrives as the three keys the notebook sends ([ts],
      [celsius], [condition]), each possibly absent or [None].
    - Celsius values (Python floats) are the rationals they denote; SQLite
      stores a NaN as NULL, so a stored REAL always has a place in the order.
    - The statements work on values the driver has bound; what binding
      does to a call's Python values (range of integers, integers stored as
      doubles) is a layer of its own, [store_packet_call] and
      [low_by_date_call].
    - [date.today()] reads the clock: the current date is an argument. *)

From Stdlib Require Import ZArith QArith String List Bool Lia.
From stdpp Require Import base option list strings gmap sorting.

Local Open Scope string_scope.
Local Open Scope Z_scope.

(** * Part I: the program *)

(** ** Python's [datetime] module: [date], [time], [datetime] *)

Module Py.

Record date := mkdate { year : Z; month : Z; day : Z }.

Record time := mktime { hour : Z; minute : Z; second : Z; microsecond : Z }.

(** A naive [datetime]: its calendar date and its time of day. *)
Record datetime := mkdatetime { dt_date : date; dt_time : time }.

#[global] Instance date_eq_dec : EqDecision date.
Proof. solve_decision. Defined.

#[global] Instance time_eq_dec : EqDecision time.
Proof. solve_decision. Defined.

#[global] Instance datetime_eq_dec : EqDecision datetime.
Proof. solve_decision. Defined.

(** [datetime.combine(date, time)] *)
Definition combine (d : date) (t : time) : datetime := mkdatetime d t.

(** [time.min] and [time.max] *)
Definition time_min : time := mktime 0 0 0 0.
Definition time_max : time := mktime 23 59 59 999999.

(** The ranges the [time] constructor enforces (it raises [ValueError]
    outside them). *)
Definition valid_time (t : time) : bool :=
  (0 <=? hour t) && (hour t <=? 23) &&
  (0 <=? minute t) && (minute t <=? 59) &&
  (0 <=? second t) && (second t <=? 59) &&
  (0 <=? microsecond t) && (microsecond t <=? 999999).

(** Lexicographic combination of two comparisons. *)
Definition lex (c1 c2 : comparison) : comparison :=
  match c1 with Eq => c2 | _ => c1 end.

Definition date_compare (a b : date) : comparison :=
  lex (year a ?= year b) (lex (month a ?= month b) (day a ?= day b)).

Definition time_compare (a b : time) : comparison :=
  lex (hour a ?= hour b)
    (lex (minute a ?= minute b)
       (lex (second a ?= second b) (microsecond a ?= microsecond b))).

(** Order of naive datetimes. SQLAlchemy stores a [DateTime] in SQLite as
    the fixed-width text [YYYY-MM-DD HH:MM:SS.ffffff], whose text order is
    this field-by-field order. *)
Definition datetime_compare (a b : datetime) : comparison :=
  lex (date_compare (dt_date a) (dt_date b))
      (time_compare (dt_time a) (dt_time b)).

Definition datetime_leb (a b : datetime) : bool :=
  match datetime_compare a b with Gt => false | _ => true end.

(** The calendar, for the day after a date. *)
Definition is_leap (y : Z) : bool :=
  ((y mod 4 =? 0) && negb (y mod 100 =? 0)) || (y mod 400 =? 0).

Definition days_in_month (y m : Z) : Z :=
  if m =? 2 then (if is_leap y then 29 else 28)
  else if (m =? 4) || (m =? 6) || (m =? 9) || (m =? 11) then 30
  else 31.

(** [d + timedelta(days=1)] *)
Definition next_day (d : date) : date :=
  if day d <? days_in_month (year d) (month d)
  then mkdate (year d) (month d) (day d + 1)
  else if month d <? 12
       then mkdate (year d) (month d + 1) 1
       else mkdate (year d + 1) 1 1.

End Py.

Import Py.

(** ** The schema catalog (notebook cell 2) *)

Inductive coltype := Integer | Text | Float | DateTime.

Record Column := mkColumn {
  col_name : string;
  col_type : coltype;
  col_primary_key : bool;
  col_nullable : bool;
  col_foreign_key : option (string * string)
}.

Record Table := mkTable { tbl_name : string; tbl_columns : list Column }.

(** [sa.Column(name, type)]: nullable, no key. *)
Definition column (name : string) (ty : coltype) : Column :=
  mkColumn name ty false true None.

(** [sa.Column(name, type, primary_key=True)]: a primary key is NOT NULL. *)
Definition pk_column (name : string) (ty : coltype) : Column :=
  mkColumn name ty true false None.

(** [sa.Column(name, type, nullable=False)] *)
Definition required_column (name : string) (ty : coltype) : Column :=
  mkColumn name ty false false None.

(** [sa.Column(name, sa.ForeignKey("table.column"))]: the type is the
    referenced column's, the column stays nullable. *)
Definition fk_column (name : string) (ty : coltype) (ref : string * string)
  : Column :=
  mkColumn name ty false true (Some ref).

Definition feeders : Table :=
  mkTable "feeders"
    [ pk_column "id" Integer;
      column "name" Text;
      column "lat" Float;
      column "long" Float ].

Definition temps : Table :=
  mkTable "temps"
    [ pk_column "id" Integer;
      fk_column "feeder_id" Integer ("feeders", "id");
      required_column "ts" DateTime;
      column "celsius" Float;
      column "condition" Text ].

(** [metadata]: the tables in declaration order, which is also the
    dependency order [create_all] walks them in. *)
Definition MetaData := list Table.

Definition metadata : MetaData := [feeders; temps].

Definition find_column (t : Table) (name : string) : option Column :=
  List.find (fun c => String.eqb (col_name c) name) (tbl_columns t).

Definition nullable_of (t : Table) (name : string) : bool :=
  match find_column t name with Some c => col_nullable c | None => true end.

Definition foreign_key_of (t : Table) (name : string)
  : option (string * string) :=
  match find_column t name with Some c => col_foreign_key c | None => None end.

(** ** The store *)

Record feeder_row := mkFeeder {
  f_id : Z;
  f_name : option string;
  f_lat : option Q;
  f_long : option Q
}.

(** A stored reading. Every column but the key can hold NULL ([None]) as far
    as the row type goes; what keeps NULL out of [ts] is the check at
    insertion. *)
Record temp_row := mkTemp {
  t_id : Z;
  t_feeder_id : option Z;
  t_ts : option datetime;
  t_celsius : option Q;
  t_condition : option string
}.

Inductive row := FeederRow (f : feeder_row) | TempRow (t : temp_row).

(** The persisted database: table name to rows, in insertion order. *)
Abbreviation database := (gmap string (list row)).

Definition has_table (db : database) (name : string) : bool :=
  match db !! name with Some _ => true | None => false end.

Definition row_id (r : row) : Z :=
  match r with FeederRow f => f_id f | TempRow t => t_id t end.

Definition as_temp (r : row) : option temp_row :=
  match r with TempRow t => Some t | FeederRow _ => None end.

(** The readings stored in a row list. *)
Definition readings (rows : list row) : list temp_row := omap as_temp rows.

(** ** Errors and results *)

Inductive exn :=
| OperationalError (msg : string)
| IntegrityError (msg : string)
| OverflowError (msg : string).

Inductive result (A : Type) :=
| Ok (a : A)
| Raise (e : exn).
Arguments Ok {A} a.
Arguments Raise {A} e.

(** Sequencing stops at the first exception; the notation is stdpp's
    [x ← r; k] and [r ;; k]. *)
#[global] Instance result_ret : MRet result := fun A a => Ok a.
#[global] Instance result_bind : MBind result := fun A B k r =>
  match r with Ok a => k a | Raise e => Raise e end.

(** ** Engine, connections and transactions *)

(** The engine settings that matter to a statement. SQLite checks foreign
    keys only on a connection that has run [PRAGMA foreign_keys = ON]. *)
Record Engine := mkEngine { eng_url : string; eng_foreign_keys : bool }.

(** [sa.create_engine(url, ...)]: no connect hook, so the pragma keeps its
    default, off. *)
Definition create_engine (url : string) : Engine := mkEngine url false.

(** Notebook cell 1. *)
Definition engine : Engine := create_engine "sqlite:///temps.db".

(** A connection inside a transaction: the engine it came from and its
    working view of the database. *)
Record Connection := mkConn { conn_engine : Engine; conn_db : database }.

(** [with engine.begin() as conn: body]: BEGIN; COMMIT when the body
    returns, ROLLBACK and re-raise when it raises. *)
Definition engine_begin {A} (e : Engine)
    (body : Connection -> result A * Connection) (db : database)
  : result A * database :=
  match body (mkConn e db) with
  | (Ok a, conn') => (Ok a, conn_db conn')
  | (Raise x, _) => (Raise x, db)
  end.

(** [with engine.connect() as conn: body]: nothing is committed; leaving
    the block closes the connection, which rolls back. *)
Definition engine_connect {A} (e : Engine)
    (body : Connection -> result A * Connection) (db : database)
  : result A * database :=
  (fst (body (mkConn e db)), db).

(** ** Statements *)

(** The rowid SQLite gives a new row of an [INTEGER PRIMARY KEY] table: one
    more than the largest in use, 1 in an empty table (as long as the
    largest is below [2^63 - 1]). *)
Definition max_rowid (rows : list row) : option Z :=
  match rows with
  | [] => None
  | r :: rs => Some (foldl (fun m r' => Z.max m (row_id r')) (row_id r) rs)
  end.

Definition next_rowid (rows : list row) : Z :=
  match max_rowid rows with Some m => m + 1 | None => 1 end.

(** NOT NULL: a NULL in a column declared [nullable=False] fails the
    statement. *)
Definition check_not_null {A} (t : Table) (name : string) (v : option A)
  : result unit :=
  match v with
  | Some _ => Ok tt
  | None =>
      if nullable_of t name then Ok tt
      else Raise (IntegrityError
                    ("NOT NULL constraint failed: "
                       ++ tbl_name t ++ "." ++ name))
  end.

(** Preparing a statement on a child table, with foreign keys enforced,
    needs the parent table to exist. *)
Definition check_parent_table (e : Engine) (db : database) (t : Table)
    (name : string) : result unit :=
  if eng_foreign_keys e then
    match foreign_key_of t name with
    | Some (parent, _) =>
        if has_table db parent then Ok tt
        else Raise (OperationalError ("no such table: main." ++ parent))
    | None => Ok tt
    end
  else Ok tt.

(** FOREIGN KEY: with enforcement on, a non-NULL value must be the key of a
    parent row (the referenced column is the parent's [id]); NULL is never
    checked. With enforcement off nothing is checked. *)
Definition check_foreign_key (e : Engine) (db : database) (t : Table)
    (name : string) (v : option Z) : result unit :=
  if eng_foreign_keys e then
    match foreign_key_of t name, v with
    | Some (parent, _), Some k =>
        if existsb (fun r => row_id r =? k) (default [] (db !! parent))
        then Ok tt
        else Raise (IntegrityError "FOREIGN KEY constraint failed")
    | _, _ => Ok tt
    end
  else Ok tt.

(** The reading a feeder sends: the [data] dict of [store_packet], with
    the keys [ts], [celsius] and [condition]. A key that is missing and a
    key bound to [None] both end as NULL. *)
Record packet := mkPacket {
  ts : option datetime;
  celsius : option Q;
  condition : option string
}.

(** The parameters of the insert: [dict(feeder_id=feeder_id, **data)]. *)
Record insert_params := mkParams {
  p_feeder_id : option Z;
  p_ts : option datetime;
  p_celsius : option Q;
  p_condition : option string
}.

Definition dict_feeder_id (feeder_id : Z) (data : packet) : insert_params :=
  mkParams (Some feeder_id) (ts data) (celsius data) (condition data).

(** The row an insert writes: the parameters under a fresh key. *)
Definition new_reading (rows : list row) (p : insert_params) : temp_row :=
  mkTemp (next_rowid rows) (p_feeder_id p) (p_ts p) (p_celsius p)
         (p_condition p).

(** [conn.execute(temps.insert(), params)]: the statement is prepared, the
    row is checked column by column, then the foreign key, and the row is
    appended; a failed statement changes nothing. *)
Definition execute_insert_temps (conn : Connection) (p : insert_params)
  : result unit * Connection :=
  let db := conn_db conn in
  let e := conn_engine conn in
  match db !! tbl_name temps with
  | None => (Raise (OperationalError "no such table: temps"), conn)
  | Some rows =>
      let checks : result unit :=
        check_parent_table e db temps "feeder_id" ;;
        check_not_null temps "feeder_id" (p_feeder_id p) ;;
        check_not_null temps "ts" (p_ts p) ;;
        check_not_null temps "celsius" (p_celsius p) ;;
        check_not_null temps "condition" (p_condition p) ;;
        check_foreign_key e db temps "feeder_id" (p_feeder_id p) in
      match checks with
      | Raise x => (Raise x, conn)
      | Ok _ =>
          let r := new_reading rows p in
          (Ok tt,
           mkConn e (<[tbl_name temps := (rows ++ [TempRow r])%list]> db))
      end
  end.

(** [sa.select(sa.func.min(temps.c.celsius)).where(temps.c.feeder_id == f,
    temps.c.ts.between(lo, hi))] *)
Record min_celsius_query := mkQuery {
  q_feeder : Z;
  q_lo : datetime;
  q_hi : datetime
}.

(** SQL comparisons with a NULL operand are not true. *)
Definition sql_eq (v : option Z) (k : Z) : bool :=
  match v with Some x => x =? k | None => false end.

Definition sql_between (v : option datetime) (lo hi : datetime) : bool :=
  match v with
  | Some x => datetime_leb lo x && datetime_leb x hi
  | None => false
  end.

Definition where_clause (q : min_celsius_query) (r : temp_row) : bool :=
  sql_eq (t_feeder_id r) (q_feeder q) && sql_between (t_ts r) (q_lo q) (q_hi q).

(** The aggregate [min()]: NULLs are skipped; NULL when nothing is left. *)
Fixpoint sql_min (vs : list (option Q)) : option Q :=
  match vs with
  | [] => None
  | None :: vs' => sql_min vs'
  | Some x :: vs' =>
      match sql_min vs' with
      | None => Some x
      | Some m => Some (if Qle_bool x m then x else m)
      end
  end.

(** The rows a query aggregates. *)
Definition selected (q : min_celsius_query) (rows : list row) : list temp_row :=
  List.filter (where_clause q) (readings rows).

(** [conn.execute(query).scalar()]: the one column of the one row an
    aggregate query returns, NULL read back as [None]. *)
Definition execute_scalar (conn : Connection) (q : min_celsius_query)
  : result (option Q) * Connection :=
  match conn_db conn !! tbl_name temps with
  | None => (Raise (OperationalError "no such table: temps"), conn)
  | Some rows => (Ok (sql_min (map t_celsius (selected q rows))), conn)
  end.

(** ** The notebook's operations *)

(** [metadata.create_all(engine)]: for each table, in order, CREATE TABLE
    unless the database already has a table of that name. *)
Definition create_table (t : Table) (db : database) : database :=
  <[tbl_name t := []]> db.

Definition create_all (md : MetaData) (e : Engine) (db : database) : database :=
  foldl (fun acc t => if has_table acc (tbl_name t) then acc
                      else create_table t acc) db md.

(** [store_packet], on any engine. *)
Definition store_packet_on (e : Engine) (feeder_id : Z) (data : packet)
    (db : database) : result unit * database :=
  engine_begin e
    (fun conn => execute_insert_temps conn (dict_feeder_id feeder_id data)) db.

(** [store_packet(feeder_id, data)], on the notebook's [engine], for
    arguments as the driver binds them. *)
Definition store_packet (feeder_id : Z) (data : packet) (db : database)
  : result unit * database :=
  store_packet_on engine feeder_id data db.

(** The query [low_by_date] builds for a feeder and a day. *)
Definition day_query (feeder : Z) (d : date) : min_celsius_query :=
  mkQuery feeder (combine d time_min) (combine d time_max).

(** [low_by_date(feeder, ts_start=None)], for a feeder as the driver binds
    it; [today] is [date.today()]. *)
Definition low_by_date (today : date) (feeder : Z) (ts_start : option date)
    (db : database) : result (option Q) * database :=
  engine_connect engine
    (fun conn =>
       let query := day_query feeder (default today ts_start) in
       execute_scalar conn query) db.

(** ** The calls as Python makes them

    [store_packet] and [low_by_date] above are the statements on values the
    driver has bound. A call hands Python values to the driver first: a
    Python [int] has to fit SQLite's 64-bit INTEGER, or binding it raises
    [OverflowError]; an [int] headed for the REAL column [celsius] is then
    stored as the nearest double. The statement is prepared before its
    parameters are bound, so a missing table is reported first. *)

Definition in_int64 (z : Z) : bool := (- 2 ^ 63 <=? z) && (z <? 2 ^ 63).

(** A Python number: an [int], or a finite [float] given as the rational it
    denotes. *)
Inductive number := PyInt (z : Z) | PyFloat (q : Q).

(** The double nearest to an integer, ties to even: exact up to [2^53],
    beyond that the 53 leading bits, rounded. *)
Definition double_of_int (z : Z) : Z :=
  let a := Z.abs z in
  if a <=? 2 ^ 53 then z
  else
    let k := Z.log2 a - 52 in
    let q := a / 2 ^ k in
    let r := a mod 2 ^ k in
    let half := 2 ^ (k - 1) in
    let q' := if r <? half then q
              else if half <? r then q + 1
              else if Z.even q then q else q + 1 in
    Z.sgn z * (q' * 2 ^ k).

Definition overflow : exn :=
  OverflowError "Python int too large to convert to SQLite INTEGER".

(** The value a number is stored as in a REAL column. *)
Definition bind_number (n : number) : result Q :=
  match n with
  | PyInt z =>
      if in_int64 z then Ok (inject_Z (double_of_int z)) else Raise overflow
  | PyFloat q => Ok q
  end.

(** The [data] dict as the caller builds it. *)
Record reading := mkReading {
  r_ts : option datetime;
  r_celsius : option number;
  r_condition : option string
}.

Definition bind_reading (data : reading) : result packet :=
  match r_celsius data with
  | None => Ok (mkPacket (r_ts data) None (r_condition data))
  | Some n =>
      v ← bind_number n; Ok (mkPacket (r_ts data) (Some v) (r_condition data))
  end.

(** The call [store_packet(feeder_id, data)]. *)
Definition store_packet_call (feeder_id : Z) (data : reading) (db : database)
  : result unit * database :=
  if has_table db "temps" then
    if in_int64 feeder_id then
      match bind_reading data with
      | Ok p => store_packet feeder_id p db
      | Raise x => (Raise x, db)
      end
    else (Raise overflow, db)
  else (Raise (OperationalError "no such table: temps"), db).

(** The query of a call of [low_by_date]: [date.today()] is read once for
    each bound (lines 194 and 195). *)
Definition call_query (today_lo today_hi : date) (feeder : Z)
    (ts_start : option date) : min_celsius_query :=
  mkQuery feeder (combine (default today_lo ts_start) time_min)
          (combine (default today_hi ts_start) time_max).

(** The call [low_by_date(feeder, ts_start)]. *)
Definition low_by_date_call (today_lo today_hi : date) (feeder : Z)
    (ts_start : option date) (db : database)
  : result (option Q) * database :=
  engine_connect engine
    (fun conn =>
       let query := call_query today_lo today_hi feeder ts_start in
       if has_table (conn_db conn) "temps" && negb (in_int64 feeder)
       then (Raise overflow, conn)
       else execute_scalar conn query) db.

(** ** Runs of the program *)

Inductive op :=
| CreateAll
| StorePacket (feeder_id : Z) (data : packet)
| LowByDate (today : date) (feeder : Z) (ts_start : option date).

Definition run_op (o : op) (db : database) : database :=
  match o with
  | CreateAll => create_all metadata engine db
  | StorePacket f d => snd (store_packet f d db)
  | LowByDate today f d => snd (low_by_date today f d db)
  end.

(** The databases the program can produce, from a database file that does
    not exist yet. *)
Inductive reachable : database -> Prop :=
| reach_init : reachable ∅
| reach_step db o : reachable db -> reachable (run_op o db).


(** ** Notions the properties are stated with *)

Definition row_count (db : database) (name : string) : nat :=
  length (default [] (db !! name)).

(** [feeder_id] identifies a row of [feeders]. *)
Definition known_feeder (db : database) (feeder_id : Z) : bool :=
  existsb (fun r => row_id r =? feeder_id) (default [] (db !! "feeders")).

(** The readings [low_by_date] aggregates for a feeder and a day. *)
Definition aggregated (db : database) (feeder : Z) (d : date)
  : list temp_row :=
  selected (day_query feeder d) (default [] (db !! "temps")).


(** Three readings [30, 10, 20] stored one after the other. *)
Definition store_three (f : Z) (t1 t2 t3 : datetime) (db : database)
  : database :=
  let db1 := snd (store_packet f (mkPacket (Some t1) (Some 30%Q) None) db) in
  let db2 := snd (store_packet f (mkPacket (Some t2) (Some 10%Q) None) db1) in
  snd (store_packet f (mkPacket (Some t3) (Some 20%Q) None) db2).

(** Every row of [temps] has a timestamp. *)
Definition ts_present (db : database) : Prop :=
  forall rows r,
    db !! "temps" = Some rows -> In (TempRow r) rows -> t_ts r <> None.

(** Every row of [temps] references exactly one row of [feeders]. *)
Definition references_one_feeder (db : database) : Prop :=
  forall rows r,
    db !! "temps" = Some rows -> In (TempRow r) rows ->
    exists k,
      t_feeder_id r = Some k /\
      length (List.filter (fun fr => row_id fr =? k)
                (default [] (db !! "feeders"))) = 1%nat.

(** The [feeders] table, if there is one, has no rows. *)
Definition no_feeders (db : database) : Prop :=
  forall rows, db !! "feeders" = Some rows -> rows = [].

(** ** The notebook's own run, and other concrete data *)

(** The packet of cell 4, at a moment [now] of a run. *)
Definition now : datetime := mkdatetime (mkdate 2023 1 15) (mktime 10 30 0 0).

Definition overcast : packet :=
  mkPacket (Some now) (Some (49 # 2)%Q) (Some "overcast").

(** The database after [metadata.create_all(engine)] on a new file. *)
Definition fresh_db : database := create_all metadata engine ∅.

(** The database after the notebook's cells 3 and 4. *)
Definition notebook_db : database :=
  run_op (StorePacket 1 overcast) (run_op CreateAll ∅).

(** A reading in the last second of a year. *)
Definition new_years_eve : date := mkdate 2023 12 31.

Definition last_second : temp_row :=
  mkTemp 1 (Some 7) (Some (combine new_years_eve (mktime 23 59 59 0)))
         (Some 3%Q) None.

Definition eve_db : database := <["temps" := [TempRow last_second]]> fresh_db.

(** A reading in the first second of the next year, after the other. *)
Definition first_second : temp_row :=
  mkTemp 2 (Some 7)
         (Some (combine (next_day new_years_eve) (mktime 0 0 0 0)))
         (Some 1%Q) None.

Definition new_year_db : database :=
  <["temps" := [TempRow last_second; TempRow first_second]]> fresh_db.

(** A reading without a temperature. *)
Definition null_reading : temp_row := mkTemp 1 (Some 1) (Some now) None None.

Definition null_db : database := <["temps" := [TempRow null_reading]]> fresh_db.

(** ** The ORM cell (notebook cell 6) *)

Definition as_feeder (r : row) : option feeder_row :=
  match r with FeederRow f => Some f | TempRow _ => None end.

(** The feeders stored in a row list. *)
Definition feeder_rows (rows : list row) : list feeder_row :=
  omap as_feeder rows.

(** The session's identity map: one object per primary key. A row whose key
    the session has loaded yields the object already loaded, not a new one
    from the row. *)
Fixpoint identity_map {A} (key : A -> Z) (seen : gmap Z A) (rs : list A)
  : list A :=
  match rs with
  | [] => []
  | r :: rs' =>
      match seen !! key r with
      | Some o => o :: identity_map key seen rs'
      | None => r :: identity_map key (<[key r := r]> seen) rs'
      end
  end.

(** [session.execute(sa.select(Temp)).scalars().all()]: the rows of [temps]
    as [Temp] objects ([class Temp(Base): __table__ = temps]), in the order
    of the table. SQLite scans a table by key; a table the program fills
    has its rows in this order, every insert taking a key above the rest. *)
Definition select_temps (session : Connection)
  : result (list temp_row) * Connection :=
  match conn_db session !! tbl_name temps with
  | None => (Raise (OperationalError "no such table: temps"), session)
  | Some rows => (Ok (identity_map t_id ∅ (readings rows)), session)
  end.

(** [session.execute(sa.select(Feeder)).scalars().all()] *)
Definition select_feeders (session : Connection)
  : result (list feeder_row) * Connection :=
  match conn_db session !! tbl_name feeders with
  | None => (Raise (OperationalError "no such table: feeders"), session)
  | Some rows => (Ok (identity_map f_id ∅ (feeder_rows rows)), session)
  end.

(** [with Session(engine) as session: body]: nothing is committed; leaving
    the block closes the session, which rolls back. *)
Definition with_session {A} (e : Engine) (body : Connection -> A * Connection)
    (db : database) : A * database :=
  (fst (body (mkConn e db)), db).

(** What the cell prints. *)
Inductive printed :=
| PrintTemps (l : list temp_row)
| PrintFeeders (l : list feeder_row).

(** The cell: two [print]s of two queries in one session. What was printed
    before an exception stays printed. *)
Definition orm_cell (db : database) : (list printed * result unit) * database :=
  with_session engine
    (fun session =>
       match select_temps session with
       | (Raise x, s1) => (([], Raise x), s1)
       | (Ok ts, s1) =>
           match select_feeders s1 with
           | (Raise x, s2) => (([PrintTemps ts], Raise x), s2)
           | (Ok fs, s2) => (([PrintTemps ts; PrintFeeders fs], Ok tt), s2)
           end
       end) db.

(** ** Further notions *)



(** The reading the notebook's cell 4 stores. *)
Definition overcast_row : temp_row :=
  mkTemp 1 (Some 1) (Some now) (Some (49 # 2)%Q) (Some "overcast").

(** An integer temperature that no double holds. *)
Definition odd_celsius : Z := 2 ^ 53 + 3.

Definition odd_reading : reading :=
  mkReading (Some now) (Some (PyInt odd_celsius)) None.

(** A reading at noon. *)
Definition noon : datetime := mkdatetime (mkdate 2023 1 15) (mktime 12 0 0 0).

Definition colder : packet := mkPacket (Some noon) (Some (10 # 1)%Q) None.

(** * Part II: properties *)

(** ** What the declarations say *)

Lemma temps_name : tbl_name temps = "temps".
Proof. reflexivity. Qed.

Lemma temps_ts_required : nullable_of temps "ts" = false.
Proof. reflexivity. Qed.

Lemma temps_feeder_id_references :
  foreign_key_of temps "feeder_id" = Some ("feeders", "id").
Proof. reflexivity. Qed.

(** ** The insert statement *)

(** An insert either raises and leaves the connection as it was, or appends
    one reading to [temps]. *)
Lemma execute_insert_temps_cases conn p :
  (exists x, execute_insert_temps conn p = (Raise x, conn)) \/
  (exists rows,
      conn_db conn !! "temps" = Some rows /\
      execute_insert_temps conn p =
        (Ok tt, mkConn (conn_engine conn)
                  (<["temps" := (rows ++ [TempRow (new_reading rows p)])%list]>
                     (conn_db conn)))).
Proof.
  unfold execute_insert_temps. rewrite temps_name.
  destruct (conn_db conn !! "temps") as [rows|] eqn:Hrows.
  - match goal with
    | |- context [match ?c with Ok _ => _ | Raise _ => _ end] =>
        destruct c as [[]|x] eqn:Hc
    end.
    + right. exists rows. split; reflexivity.
    + left. exists x. reflexivity.
  - left. eexists. reflexivity.
Qed.

(** A NULL timestamp fails the insert, on any engine. *)
Lemma execute_insert_temps_ts_null conn p :
  p_ts p = None ->
  exists x, execute_insert_temps conn p = (Raise x, conn).
Proof.
  intros Hts. unfold execute_insert_temps. rewrite temps_name.
  destruct (conn_db conn !! "temps") as [rows|]; [|eexists; reflexivity].
  rewrite Hts.
  destruct (check_parent_table _ _ _ _) as [[]|x]; cbn;
    [|eexists; reflexivity].
  destruct (check_not_null temps "feeder_id" _) as [[]|x]; cbn;
    eexists; reflexivity.
Qed.

(** Without foreign-key enforcement, an insert with a timestamp into an
    existing [temps] table succeeds. *)
Lemma execute_insert_temps_unenforced conn p rows t :
  eng_foreign_keys (conn_engine conn) = false ->
  conn_db conn !! "temps" = Some rows ->
  p_ts p = Some t ->
  execute_insert_temps conn p =
    (Ok tt, mkConn (conn_engine conn)
              (<["temps" := (rows ++ [TempRow (new_reading rows p)])%list]>
                 (conn_db conn))).
Proof.
  intros Hfk Hrows Hts. unfold execute_insert_temps.
  rewrite temps_name, Hrows.
  unfold check_parent_table, check_foreign_key. rewrite Hfk.
  destruct p as [[f|] pts [c|] [k|]]; cbn in Hts; subst pts; reflexivity.
Qed.

(** ** The order of dates and times *)

Section Order.

Lemma date_compare_refl d : date_compare d d = Eq.
Proof. unfold date_compare. by rewrite !Z.compare_refl. Qed.

Lemma date_compare_eq a b : date_compare a b = Eq -> a = b.
Proof.
  destruct a as [y1 m1 d1], b as [y2 m2 d2]. unfold date_compare, lex; cbn.
  destruct (Z.compare_spec y1 y2); try discriminate.
  destruct (Z.compare_spec m1 m2); try discriminate.
  destruct (Z.compare_spec d1 d2); try discriminate.
  intros _. congruence.
Qed.

Lemma date_compare_antisym a b :
  date_compare b a = CompOpp (date_compare a b).
Proof.
  unfold date_compare, lex.
  rewrite (Z.compare_antisym (year a)), (Z.compare_antisym (month a)),
    (Z.compare_antisym (day a)).
  destruct (year a ?= year b), (month a ?= month b), (day a ?= day b);
    reflexivity.
Qed.

Lemma lex_not_Gt c1 c2 :
  c1 <> Gt -> (c1 = Eq -> c2 <> Gt) -> lex c1 c2 <> Gt.
Proof. destruct c1; cbn; auto. Qed.

Lemma valid_time_bounds t :
  valid_time t = true ->
  (0 <= hour t <= 23) /\ (0 <= minute t <= 59) /\
  (0 <= second t <= 59) /\ (0 <= microsecond t <= 999999).
Proof.
  unfold valid_time. rewrite !andb_true_iff, !Z.leb_le. tauto.
Qed.

(** [time.min] is the least valid time of day, [time.max] the greatest. *)
Lemma time_min_least t :
  valid_time t = true -> time_compare time_min t <> Gt.
Proof.
  intros Hv. apply valid_time_bounds in Hv.
  unfold time_compare, time_min; cbn [hour minute second microsecond].
  apply lex_not_Gt; [|intros _; apply lex_not_Gt;
                      [|intros _; apply lex_not_Gt; [|intros _]]];
    match goal with |- (?a ?= ?b) <> Gt => change (a <= b) end; lia.
Qed.

Lemma time_max_greatest t :
  valid_time t = true -> time_compare t time_max <> Gt.
Proof.
  intros Hv. apply valid_time_bounds in Hv.
  unfold time_compare, time_max; cbn [hour minute second microsecond].
  apply lex_not_Gt; [|intros _; apply lex_not_Gt;
                      [|intros _; apply lex_not_Gt; [|intros _]]];
    match goal with |- (?a ?= ?b) <> Gt => change (a <= b) end; lia.
Qed.

(** A timestamp inside the bounds of day [d] is dated [d]. *)
Lemma between_day_date x d :
  datetime_leb (combine d time_min) x = true ->
  datetime_leb x (combine d time_max) = true ->
  dt_date x = d.
Proof.
  unfold datetime_leb, datetime_compare, combine; cbn.
  rewrite (date_compare_antisym d (dt_date x)).
  destruct (date_compare d (dt_date x)) eqn:Hc; cbn.
  - intros _ _. symmetry. by apply date_compare_eq.
  - intros _ H. discriminate H.
  - intros H _. discriminate H.
Qed.

(** A valid timestamp is inside the bounds of its own day. *)
Lemma between_own_day x :
  valid_time (dt_time x) = true ->
  datetime_leb (combine (dt_date x) time_min) x = true /\
  datetime_leb x (combine (dt_date x) time_max) = true.
Proof.
  intros Hv. unfold datetime_leb, datetime_compare, combine; cbn.
  rewrite date_compare_refl; cbn.
  pose proof (time_min_least _ Hv). pose proof (time_max_greatest _ Hv).
  split.
  - by destruct (time_compare time_min (dt_time x)).
  - by destruct (time_compare (dt_time x) time_max).
Qed.

Lemma sql_between_day x d :
  valid_time (dt_time x) = true ->
  sql_between (Some x) (combine d time_min) (combine d time_max)
  = bool_decide (dt_date x = d).
Proof.
  intros Hv. unfold sql_between. case_bool_decide as Hd.
  - subst d. destruct (between_own_day x Hv) as [-> ->]. reflexivity.
  - apply not_true_is_false. rewrite andb_true_iff. intros [H1 H2].
    apply Hd. by apply between_day_date.
Qed.

Lemma next_day_neq d : next_day d <> d.
Proof.
  destruct d as [y m dd]. unfold next_day; cbn.
  destruct (dd <? days_in_month y m); [intros [=]; lia|].
  destruct (m <? 12); intros [=]; lia.
Qed.

End Order.

(** ** The aggregate *)

Section Aggregate.

Lemma sql_min_None vs :
  sql_min vs = None <-> (forall v, In v vs -> v = None).
Proof.
  induction vs as [|[x|] vs IH]; cbn.
  - split; [intros _ v []|done].
  - split.
    + destruct (sql_min vs); discriminate.
    + intros H. specialize (H (Some x) (or_introl eq_refl)). discriminate.
  - rewrite IH. split.
    + intros H v [<-|Hin]; [done|by apply H].
    + intros H v Hin. apply H. by right.
Qed.

(** The result of [min()] is one of the values and lies below them all. *)
Lemma sql_min_Some vs m :
  sql_min vs = Some m ->
  In (Some m) vs /\ (forall x, In (Some x) vs -> (m <= x)%Q).
Proof.
  revert m. induction vs as [|[x|] vs IH]; cbn; intros m Hm.
  - discriminate.
  - destruct (sql_min vs) as [m'|] eqn:Hmin.
    + destruct (IH m' eq_refl) as [Hin Hle].
      destruct (Qle_bool x m') eqn:Hx; injection Hm as <-.
      * apply Qle_bool_iff in Hx. split; [by left|].
        intros y [[= <-]|Hy]; [apply Qle_refl|].
        eapply Qle_trans; [exact Hx|by apply Hle].
      * assert (m' <= x)%Q as Hmx.
        { apply Qlt_le_weak, Qnot_le_lt. intros Hc.
          apply Qle_bool_iff in Hc. congruence. }
        split; [by right|].
        intros y [[= <-]|Hy]; [exact Hmx|by apply Hle].
    + injection Hm as <-. split; [by left|].
      intros y [[= <-]|Hy]; [apply Qle_refl|].
      pose proof (proj1 (sql_min_None vs) Hmin _ Hy). discriminate.
  - destruct (IH m Hm) as [Hin Hle]. split; [by right|].
    intros y [[=]|Hy]. by apply Hle.
Qed.

(** A non-NULL value among the aggregated ones bounds the result. *)
Lemma sql_min_le vs x :
  In (Some x) vs -> exists m, sql_min vs = Some m /\ (m <= x)%Q.
Proof.
  intros Hin. destruct (sql_min vs) as [m|] eqn:Hmin.
  - exists m. split; [done|]. by apply (sql_min_Some vs m Hmin).
  - pose proof (proj1 (sql_min_None vs) Hmin _ Hin). discriminate.
Qed.

End Aggregate.

Section Operations.

Lemma readings_app rows rows' :
  readings (rows ++ rows') = (readings rows ++ readings rows')%list.
Proof. apply omap_app. Qed.

Lemma selected_app q rows rows' :
  selected q (rows ++ rows') = (selected q rows ++ selected q rows')%list.
Proof. unfold selected. by rewrite readings_app, List.filter_app. Qed.

Lemma selected_In q rows r :
  In r (selected q rows) <-> In r (readings rows) /\ where_clause q r = true.
Proof. unfold selected. apply List.filter_In. Qed.

Lemma In_readings rows r : In r (readings rows) <-> In (TempRow r) rows.
Proof.
  unfold readings. rewrite <- !list_elem_of_In, list_elem_of_omap. split.
  - intros ([f|t] & Hin & Heq); cbn in Heq; [discriminate|].
    by injection Heq as ->.
  - intros Hin. by exists (TempRow r).
Qed.

(** The WHERE clause of a day's query, spelled out. *)
Lemma where_clause_day f d r :
  where_clause (day_query f d) r = true <->
  t_feeder_id r = Some f /\
  exists x, t_ts r = Some x /\
            datetime_leb (combine d time_min) x = true /\
            datetime_leb x (combine d time_max) = true.
Proof.
  unfold where_clause, day_query, sql_eq, sql_between; cbn.
  rewrite andb_true_iff. split.
  - intros [Hf Ht]. destruct (t_feeder_id r) as [k|]; [|discriminate].
    apply Z.eqb_eq in Hf as ->. split; [done|].
    destruct (t_ts r) as [x|]; [|discriminate].
    apply andb_true_iff in Ht. by exists x.
  - intros [-> (x & -> & H1 & H2)]. rewrite Z.eqb_refl, H1, H2. done.
Qed.

(** [store_packet]: rolled back with the exception, or committed with one
    more reading. *)
Lemma store_packet_on_cases e feeder_id data db :
  (exists x, store_packet_on e feeder_id data db = (Raise x, db)) \/
  (exists rows,
      db !! "temps" = Some rows /\
      store_packet_on e feeder_id data db =
        (Ok tt,
         <["temps" :=
             (rows ++ [TempRow (new_reading rows
                                  (dict_feeder_id feeder_id data))])%list]>
           db)).
Proof.
  unfold store_packet_on, engine_begin.
  destruct (execute_insert_temps_cases (mkConn e db)
              (dict_feeder_id feeder_id data)) as [[x ->]|(rows & Hr & ->)].
  - left. by exists x.
  - right. by exists rows.
Qed.

Lemma store_packet_on_ts_null e feeder_id data db :
  ts data = None ->
  exists x, store_packet_on e feeder_id data db = (Raise x, db).
Proof.
  intros Hts. unfold store_packet_on, engine_begin.
  destruct (execute_insert_temps_ts_null (mkConn e db)
              (dict_feeder_id feeder_id data) Hts) as [x ->].
  by exists x.
Qed.

Lemma store_packet_no_table e feeder_id data db :
  db !! "temps" = None ->
  store_packet_on e feeder_id data db =
    (Raise (OperationalError "no such table: temps"), db).
Proof.
  intros Hno. unfold store_packet_on, engine_begin, execute_insert_temps.
  rewrite temps_name. cbn [conn_db]. by rewrite Hno.
Qed.

(** What a successful [store_packet] tells about its arguments. *)
Lemma store_packet_on_Ok_inv e feeder_id data db db' :
  store_packet_on e feeder_id data db = (Ok tt, db') ->
  exists rows t,
    db !! "temps" = Some rows /\ ts data = Some t /\
    db' = <["temps" :=
              (rows ++ [TempRow (new_reading rows
                                   (dict_feeder_id feeder_id data))])%list]>
            db.
Proof.
  intros Hok.
  destruct (ts data) as [t|] eqn:Hts.
  - destruct (store_packet_on_cases e feeder_id data db)
      as [[x Hx]|(rows & Hrows & Hs)]; [congruence|].
    exists rows, t. rewrite Hs in Hok. injection Hok as <-. done.
  - destruct (store_packet_on_ts_null e feeder_id data db Hts) as [x Hx].
    congruence.
Qed.

Lemma low_by_date_no_table today feeder ts_start db :
  db !! "temps" = None ->
  low_by_date today feeder ts_start db =
    (Raise (OperationalError "no such table: temps"), db).
Proof.
  intros Hno. unfold low_by_date, engine_connect, execute_scalar.
  rewrite temps_name. cbn [conn_db]. by rewrite Hno.
Qed.


(** [create_all], table by table. *)
Lemma create_all_lookup md e db name :
  create_all md e db !! name =
    match db !! name with
    | Some rows => Some rows
    | None => if bool_decide (name ∈ tbl_name <$> md) then Some [] else None
    end.
Proof.
  unfold create_all. revert db. induction md as [|t md IH]; intros db.
  - cbn. by destruct (db !! name).
  - cbn [foldl]. rewrite IH, fmap_cons. unfold has_table, create_table.
    destruct (decide (tbl_name t = name)) as [->|Hne].
    + destruct (db !! name) as [rows|] eqn:Hl.
      * by rewrite Hl.
      * rewrite lookup_insert_eq. rewrite bool_decide_eq_true_2; [done|].
        apply list_elem_of_here.
    + destruct (db !! tbl_name t) eqn:Ht; [|rewrite lookup_insert_ne by done];
        (destruct (db !! name); [done|]);
        (rewrite (bool_decide_ext (name ∈ tbl_name t :: (tbl_name <$> md))
                    (name ∈ tbl_name <$> md));
         [done|rewrite elem_of_cons; split; [by intros [->|?]|by right]]).
Qed.

Lemma create_all_temps e db :
  create_all metadata e db !! "temps" = Some (default [] (db !! "temps")).
Proof. rewrite create_all_lookup. by destruct (db !! "temps"). Qed.

Lemma create_all_feeders e db :
  create_all metadata e db !! "feeders"
  = Some (default [] (db !! "feeders")).
Proof. rewrite create_all_lookup. by destruct (db !! "feeders"). Qed.

Lemma declared_tables name :
  name ∈ ["feeders"; "temps"] <->
  name ∈ ({["feeders"; "temps"]} : gset string).
Proof.
  rewrite !elem_of_cons, elem_of_nil, elem_of_union, !elem_of_singleton.
  tauto.
Qed.

End Operations.

(** ** With the schema applied *)

Section WithTemps.

Context (db : database) (rows : list row).
Hypothesis Hrows : db !! "temps" = Some rows.

(** On the notebook's engine the insert needs only the table and the
    timestamp. *)
Lemma store_packet_ok feeder_id data t :
  ts data = Some t ->
  store_packet feeder_id data db =
    (Ok tt,
     <["temps" :=
         (rows ++ [TempRow (new_reading rows
                              (dict_feeder_id feeder_id data))])%list]> db).
Proof.
  intros Hts. unfold store_packet, store_packet_on, engine_begin.
  by rewrite (execute_insert_temps_unenforced (mkConn engine db)
                (dict_feeder_id feeder_id data) rows t eq_refl Hrows Hts).
Qed.

(** One more row after an insert. *)
Lemma row_count_insert r :
  row_count (<["temps" := (rows ++ [r])%list]> db) "temps"
  = S (row_count db "temps").
Proof.
  unfold row_count. rewrite lookup_insert_eq, Hrows. cbn.
  rewrite length_app. cbn. lia.
Qed.

(** [low_by_date] is [min()] over the aggregated readings. *)
Lemma low_by_date_eq today feeder ts_start :
  low_by_date today feeder ts_start db =
    (Ok (sql_min (map t_celsius
                    (aggregated db feeder (default today ts_start)))), db).
Proof.
  unfold low_by_date, engine_connect, execute_scalar, aggregated.
  rewrite temps_name. cbn [conn_db]. by rewrite Hrows.
Qed.

(** The aggregated readings, by the columns of a row. *)
Lemma aggregated_In feeder d r :
  In r (aggregated db feeder d) <->
  In (TempRow r) rows /\ t_feeder_id r = Some feeder /\
  exists x, t_ts r = Some x /\
            datetime_leb (combine d time_min) x = true /\
            datetime_leb x (combine d time_max) = true.
Proof.
  unfold aggregated. rewrite Hrows. cbn [default from_option id].
  by rewrite selected_In, In_readings, where_clause_day.
Qed.

(** For a valid timestamp the bounds say: dated [d]. *)
Lemma aggregated_by_date feeder d r x :
  t_ts r = Some x ->
  valid_time (dt_time x) = true ->
  In r (aggregated db feeder d) <->
  In (TempRow r) rows /\ t_feeder_id r = Some feeder /\ dt_date x = d.
Proof.
  intros Hx Hv. rewrite aggregated_In. split.
  - intros (Hin & Hf & y & Hy & H1 & H2). rewrite Hx in Hy.
    injection Hy as <-. repeat split; try done. by apply between_day_date.
  - intros (Hin & Hf & <-). repeat split; try done.
    exists x. split; [done|]. by apply between_own_day.
Qed.

(** The readings aggregated after one more reading was stored. *)
Lemma aggregated_insert r feeder d :
  aggregated (<["temps" := (rows ++ [TempRow r])%list]> db) feeder d =
    (aggregated db feeder d ++
     (if where_clause (day_query feeder d) r then [r] else []))%list.
Proof.
  unfold aggregated.
  rewrite lookup_insert_eq, Hrows. cbn [default from_option id].
  by rewrite selected_app.
Qed.

End WithTemps.

(** ** One reading among the others *)

Lemma sql_min_only (A B : list (option Q)) c :
  (forall v, In v (A ++ B) -> v = None) ->
  sql_min (A ++ Some c :: B) = Some c.
Proof.
  intros Hnone. induction A as [|a A IH]; cbn.
  - by rewrite (proj2 (sql_min_None B)).
  - rewrite (Hnone a (or_introl eq_refl)). apply IH.
    intros v Hv. apply Hnone. by right.
Qed.

Section OneReading.

Context (db : database) (pre post : list row) (r : temp_row).
Hypothesis Hrows : db !! "temps" = Some (pre ++ TempRow r :: post)%list.

(** A reading the WHERE clause rejects is not in the answer: the answer is
    the one of the database without it. *)
Lemma low_by_date_excluded today f d :
  where_clause (day_query f d) r = false ->
  fst (low_by_date today f (Some d) db)
  = fst (low_by_date today f (Some d) (<["temps" := (pre ++ post)%list]> db)).
Proof.
  intros Hw.
  rewrite (low_by_date_eq db _ Hrows).
  rewrite (low_by_date_eq _ _ (lookup_insert_eq db "temps" _)).
  cbn [fst default from_option id]. unfold aggregated.
  rewrite Hrows, lookup_insert_eq. cbn [default from_option id].
  change (pre ++ TempRow r :: post)%list
    with (pre ++ [TempRow r] ++ post)%list.
  rewrite !selected_app. unfold selected at 2.
  cbn [readings omap list_omap as_temp mbind option_bind List.filter app].
  by rewrite Hw.
Qed.

(** A reading the WHERE clause accepts is in the answer: the answer is at
    most its temperature, and is its temperature when the database without
    it has no answer. *)
Lemma low_by_date_included today f d c :
  where_clause (day_query f d) r = true ->
  t_celsius r = Some c ->
  (exists m, fst (low_by_date today f (Some d) db) = Ok (Some m) /\
             (m <= c)%Q) /\
  (fst (low_by_date today f (Some d) (<["temps" := (pre ++ post)%list]> db))
   = Ok None ->
   fst (low_by_date today f (Some d) db) = Ok (Some c)).
Proof.
  intros Hw Hc.
  assert (map t_celsius (selected (day_query f d) [TempRow r]) = [Some c])
    as Hsel by (unfold selected; cbn; rewrite Hw; cbn; by rewrite Hc).
  rewrite (low_by_date_eq db _ Hrows).
  rewrite (low_by_date_eq _ _ (lookup_insert_eq db "temps" _)).
  cbn [fst default from_option id]. unfold aggregated.
  rewrite Hrows, lookup_insert_eq. cbn [default from_option id].
  change (pre ++ TempRow r :: post)%list
    with (pre ++ [TempRow r] ++ post)%list.
  rewrite !selected_app, !map_app, Hsel. cbn [app]. split.
  - destruct (sql_min_le
                (map t_celsius (selected (day_query f d) pre) ++
                 Some c :: map t_celsius (selected (day_query f d) post)) c)
      as (m & -> & Hle); [|by exists m].
    apply in_or_app. right. by left.
  - intros [= Hnone]. rewrite sql_min_only; [done|].
    by apply sql_min_None.
Qed.

(** The WHERE clause on a reading with a valid timestamp. *)
Lemma where_clause_valid f d k x :
  t_feeder_id r = Some k ->
  t_ts r = Some x ->
  valid_time (dt_time x) = true ->
  where_clause (day_query f d) r
  = bool_decide (k = f) && bool_decide (dt_date x = d).
Proof.
  intros Hk Hx Hv. unfold where_clause, day_query, sql_eq; cbn.
  rewrite Hk, Hx, (sql_between_day x d Hv). f_equal.
  destruct (Z.eqb_spec k f); by case_bool_decide.
Qed.

End OneReading.

(** ** The calls *)

Section Calls.


(** The call on a database with a [temps] table. *)
Lemma low_by_date_call_cases today_lo today_hi f ts_start db rows :
  db !! "temps" = Some rows ->
  low_by_date_call today_lo today_hi f ts_start db
  = (if in_int64 f
     then Ok (sql_min (map t_celsius
                         (selected (call_query today_lo today_hi f ts_start)
                            rows)))
     else Raise overflow, db).
Proof.
  intros Hrows.
  unfold low_by_date_call, engine_connect, execute_scalar, has_table.
  rewrite temps_name. cbn [conn_db]. rewrite Hrows.
  by destruct (in_int64 f).
Qed.

(** A feeder outside the 64-bit range cannot be bound. *)
Lemma low_by_date_call_overflow today_lo today_hi f ts_start db rows :
  db !! "temps" = Some rows ->
  in_int64 f = false ->
  low_by_date_call today_lo today_hi f ts_start db = (Raise overflow, db).
Proof.
  intros Hrows Hf. unfold low_by_date_call, engine_connect, has_table.
  cbn [conn_db]. by rewrite Hrows, Hf.
Qed.


(** Binding a reading fails in one way only. *)
Lemma bind_reading_error data x : bind_reading data = Raise x -> x = overflow.
Proof.
  unfold bind_reading. destruct (r_celsius data) as [[z|q]|]; cbn;
    try discriminate.
  destruct (in_int64 z); cbn; [discriminate|]. by intros [= <-].
Qed.


End Calls.

(** ** The notebook's own run *)

Example fresh_db_tables :
  fresh_db = <["temps" := []]> (<["feeders" := []]> ∅).
Proof. reflexivity. Qed.

(** Cell 4 succeeds on it, though no feeder was ever stored. *)
Example notebook_store_packet :
  store_packet 1 overcast fresh_db =
    (Ok tt,
     <["temps" := [TempRow (mkTemp 1 (Some 1) (Some now) (Some (49 # 2)%Q)
                              (Some "overcast"))]]> fresh_db).
Proof. reflexivity. Qed.

(** * Part III: the claims *)

(** ** Ingest *)

(** C1. Every call [store_packet(feeder_id, data)] either returns normally,
    having committed exactly one new row to [temps] (the old rows followed
    by the new reading, every other table as it was), or raises, the
    transaction rolled back and the database unchanged. *)
Theorem store_packet_atomic feeder_id data db :
  (exists rows r,
      db !! "temps" = Some rows /\
      t_feeder_id r = Some feeder_id /\ t_ts r = ts data /\
      t_celsius r = celsius data /\ t_condition r = condition data /\
      store_packet feeder_id data db =
        (Ok tt, <["temps" := (rows ++ [TempRow r])%list]> db) /\
      row_count (snd (store_packet feeder_id data db)) "temps"
      = S (row_count db "temps")) \/
  (exists x, store_packet feeder_id data db = (Raise x, db)).
Proof.
  destruct (store_packet_on_cases engine feeder_id data db)
    as [[x Hx]|(rows & Hrows & Hs)].
  - right. by exists x.
  - left. exists rows, (new_reading rows (dict_feeder_id feeder_id data)).
    unfold store_packet. rewrite Hs. repeat split; try done.
    cbn [snd]. by apply row_count_insert.
Qed.

(** The foreign key, were it enforced: an unknown feeder fails the insert
    and nothing is stored. *)
Lemma store_packet_on_enforced url feeder_id data db rows frows t :
  db !! "temps" = Some rows ->
  db !! "feeders" = Some frows ->
  ts data = Some t ->
  known_feeder db feeder_id = false ->
  store_packet_on (mkEngine url true) feeder_id data db =
    (Raise (IntegrityError "FOREIGN KEY constraint failed"), db).
Proof.
  intros Hrows Hfrows Hts Hunknown.
  unfold store_packet_on, engine_begin, execute_insert_temps.
  rewrite temps_name. cbn [conn_db conn_engine]. rewrite Hrows.
  unfold check_parent_table, check_foreign_key, has_table.
  cbn [eng_foreign_keys]. rewrite temps_feeder_id_references, Hfrows.
  unfold known_feeder in Hunknown. rewrite Hfrows in Hunknown.
  destruct data as [dts c k]; cbn in Hts; subst dts.
  cbn [dict_feeder_id p_feeder_id p_ts p_celsius p_condition ts celsius
         condition].
  destruct c, k; cbn; cbn in Hunknown; by rewrite Hunknown.
Qed.

(** C2, as the spec states it, fails: the notebook's own call stores a
    reading for feeder 1 in a database without feeders. *)
Lemma store_packet_unknown_feeder_raises_false :
  ~ (forall feeder_id data db,
        known_feeder db feeder_id = false ->
        (exists msg, fst (store_packet feeder_id data db)
                     = Raise (IntegrityError msg)) /\
        row_count (snd (store_packet feeder_id data db)) "temps"
        = row_count db "temps").
Proof.
  intros H. destruct (H 1 overcast fresh_db eq_refl) as [[msg Hmsg] _].
  rewrite notebook_store_packet in Hmsg. discriminate.
Qed.

(** The insert on the notebook's engine never fails on the foreign key. *)
Lemma store_packet_no_fk_error feeder_id data db x :
  fst (store_packet feeder_id data db) = Raise x ->
  x <> IntegrityError "FOREIGN KEY constraint failed".
Proof.
  intros Hx. destruct (db !! "temps") as [rows|] eqn:Hrows.
  - destruct (ts data) as [t|] eqn:Hts.
    + rewrite (store_packet_ok db rows Hrows feeder_id data t Hts) in Hx.
      discriminate.
    + unfold store_packet, store_packet_on, engine_begin,
        execute_insert_temps in Hx.
      rewrite temps_name in Hx. cbn [conn_db conn_engine] in Hx.
      rewrite Hrows in Hx.
      destruct data as [dts c k]; cbn in Hts; subst dts.
      destruct c, k; cbn in Hx; injection Hx as <-; discriminate.
  - unfold store_packet in Hx.
    rewrite (store_packet_no_table engine feeder_id data db Hrows) in Hx.
    injection Hx as <-. discriminate.
Qed.

(** C2, amended. For a [feeder_id] that identifies no row of [feeders],
    [store_packet] on the notebook's engine raises no foreign-key error: it
    either returns normally, and [temps] has exactly one row more, or raises
    another error, and the database is unchanged. So it is for the
    statement on bound values and for the call. *)
Theorem store_packet_unknown_feeder feeder_id data db :
  known_feeder db feeder_id = false ->
  (forall p x,
      fst (store_packet feeder_id p db) = Raise x ->
      x <> IntegrityError "FOREIGN KEY constraint failed" /\
      snd (store_packet feeder_id p db) = db) /\
  (forall p,
      fst (store_packet feeder_id p db) = Ok tt ->
      row_count (snd (store_packet feeder_id p db)) "temps"
      = S (row_count db "temps")) /\
  (forall x,
      fst (store_packet_call feeder_id data db) = Raise x ->
      x <> IntegrityError "FOREIGN KEY constraint failed" /\
      snd (store_packet_call feeder_id data db) = db) /\
  (fst (store_packet_call feeder_id data db) = Ok tt ->
   row_count (snd (store_packet_call feeder_id data db)) "temps"
   = S (row_count db "temps")).
Proof.
  intros _.
  assert (forall p x,
             fst (store_packet feeder_id p db) = Raise x ->
             x <> IntegrityError "FOREIGN KEY constraint failed" /\
             snd (store_packet feeder_id p db) = db) as Hraise.
  { intros p x Hx. split; [by apply (store_packet_no_fk_error feeder_id p db)|].
    destruct (store_packet_on_cases engine feeder_id p db)
      as [[y Hy]|(rows & Hrows & Hs)]; unfold store_packet in *.
    - by rewrite Hy.
    - rewrite Hs in Hx. discriminate. }
  assert (forall p,
             fst (store_packet feeder_id p db) = Ok tt ->
             row_count (snd (store_packet feeder_id p db)) "temps"
             = S (row_count db "temps")) as Hok.
  { intros p Hp.
    destruct (store_packet_on_cases engine feeder_id p db)
      as [[y Hy]|(rows & Hrows & Hs)]; unfold store_packet in *.
    - rewrite Hy in Hp. discriminate.
    - rewrite Hs. cbn [snd]. by apply row_count_insert. }
  split; [done|]. split; [done|].
  unfold store_packet_call.
  destruct (has_table db "temps"); [|split; [|discriminate]].
  - destruct (in_int64 feeder_id); [|split; [|discriminate]].
    + destruct (bind_reading data) as [p|y] eqn:Hb; [by split; auto|].
      split; [|discriminate]. intros x [= <-]. split; [|done].
      by rewrite (bind_reading_error data y Hb).
    + intros x [= <-]. by split.
  - intros x [= <-]. by split.
Qed.

Lemma store_packet_unknown_feeder_witness :
  known_feeder fresh_db 1 = false /\
  fst (store_packet 1 overcast fresh_db) = Ok tt /\
  row_count (snd (store_packet 1 overcast fresh_db)) "temps"
  = S (row_count fresh_db "temps").
Proof.
  split; [reflexivity|]. split; [reflexivity|].
  apply (proj1 (proj2 (store_packet_unknown_feeder 1 odd_reading fresh_db
                         eq_refl)) overcast).
  reflexivity.
Defined.

(** ** Query *)



Example low_by_date_30_10_20 :
  fst (low_by_date (mkdate 2023 1 15) 1 None
         (store_three 1 (mkdatetime (mkdate 2023 1 15) (mktime 8 0 0 0))
            (mkdatetime (mkdate 2023 1 15) (mktime 12 0 0 0))
            (mkdatetime (mkdate 2023 1 15) (mktime 18 0 0 0)) fresh_db))
  = Ok (Some 10%Q).
Proof. reflexivity. Qed.


(** C4. A reading of feeder [f] stamped 23:59:59 on day [D] is counted by
    [low_by_date(f, D)]: the answer is at most its temperature, and is its
    temperature when the other readings give none. It is not counted by
    [low_by_date(f, D+1)], whose answer is the one of the database without
    the reading; nor is a reading stamped 00:00:00 on day [D+1] counted by
    [low_by_date(f, D)]. *)
Theorem day_boundaries today f D db pre r post c :
  db !! "temps" = Some (pre ++ TempRow r :: post)%list ->
  t_feeder_id r = Some f ->
  t_celsius r = Some c ->
  (t_ts r = Some (combine D (mktime 23 59 59 0)) ->
   (exists m, fst (low_by_date today f (Some D) db) = Ok (Some m) /\
              (m <= c)%Q) /\
   (fst (low_by_date today f (Some D)
           (<["temps" := (pre ++ post)%list]> db)) = Ok None ->
    fst (low_by_date today f (Some D) db) = Ok (Some c)) /\
   fst (low_by_date today f (Some (next_day D)) db)
   = fst (low_by_date today f (Some (next_day D))
            (<["temps" := (pre ++ post)%list]> db))) /\
  (t_ts r = Some (combine (next_day D) (mktime 0 0 0 0)) ->
   fst (low_by_date today f (Some D) db)
   = fst (low_by_date today f (Some D)
            (<["temps" := (pre ++ post)%list]> db))).
Proof.
  intros Hrows Hf Hc. split; intros Hts.
  - assert (where_clause (day_query f D) r = true) as Hin.
    { rewrite (where_clause_valid r f D f _ Hf Hts eq_refl).
      cbn [dt_date combine]. by rewrite !bool_decide_eq_true_2. }
    assert (where_clause (day_query f (next_day D)) r = false) as Hout.
    { rewrite (where_clause_valid r f (next_day D) f _ Hf Hts eq_refl).
      cbn [dt_date combine].
      rewrite (bool_decide_eq_false_2 (D = next_day D)), andb_false_r; [done|].
      intros Heq. by apply (next_day_neq D). }
    destruct (low_by_date_included db pre post r Hrows today f D c Hin Hc)
      as [Hle Honly].
    split; [done|]. split; [done|].
    by apply (low_by_date_excluded db pre post r Hrows).
  - apply (low_by_date_excluded db pre post r Hrows).
    rewrite (where_clause_valid r f D f _ Hf Hts eq_refl).
    cbn [dt_date combine].
    rewrite (bool_decide_eq_false_2 (next_day D = D)), andb_false_r; [done|].
    apply next_day_neq.
Qed.

Lemma day_boundaries_witness :
  next_day new_years_eve = mkdate 2024 1 1 /\
  ((exists m,
       fst (low_by_date new_years_eve 7 (Some new_years_eve) new_year_db)
       = Ok (Some m) /\ (m <= 3)%Q) /\
   (fst (low_by_date new_years_eve 7 (Some new_years_eve)
           (<["temps" := ([] ++ [TempRow first_second])%list]> new_year_db))
    = Ok None ->
    fst (low_by_date new_years_eve 7 (Some new_years_eve) new_year_db)
    = Ok (Some 3%Q)) /\
   fst (low_by_date new_years_eve 7 (Some (next_day new_years_eve))
          new_year_db)
   = fst (low_by_date new_years_eve 7 (Some (next_day new_years_eve))
            (<["temps" := ([] ++ [TempRow first_second])%list]> new_year_db)))
  /\
  fst (low_by_date new_years_eve 7 (Some new_years_eve) new_year_db)
  = fst (low_by_date new_years_eve 7 (Some new_years_eve)
           (<["temps" := ([TempRow last_second] ++ [])%list]> new_year_db)).
Proof.
  split; [reflexivity|]. split.
  - apply (proj1 (day_boundaries new_years_eve 7 new_years_eve new_year_db
                    [] last_second [TempRow first_second] 3%Q
                    eq_refl eq_refl eq_refl) eq_refl).
  - apply (proj2 (day_boundaries new_years_eve 7 new_years_eve new_year_db
                    [TempRow last_second] first_second [] 1%Q
                    eq_refl eq_refl eq_refl) eq_refl).
Defined.

Example day_boundaries_answers :
  fst (low_by_date new_years_eve 7 (Some new_years_eve) new_year_db)
  = Ok (Some 3%Q) /\
  fst (low_by_date new_years_eve 7 (Some (next_day new_years_eve))
         new_year_db)
  = Ok (Some 1%Q).
Proof. split; reflexivity. Qed.





(** C6, as the spec states it, fails: for the feeder [2^63], which no
    stored reading matches, the call raises [OverflowError]. *)
Lemma low_by_date_call_unbindable_feeder :
  ~ (forall today_lo today_hi f d db rows,
        db !! "temps" = Some rows ->
        selected (call_query today_lo today_hi f d) rows = [] ->
        fst (low_by_date_call today_lo today_hi f d db) = Ok None).
Proof.
  intros H.
  pose proof (H (dt_date now) (dt_date now) (2 ^ 63) None fresh_db []
                eq_refl eq_refl) as Hcall.
  rewrite (low_by_date_call_cases _ _ _ _ fresh_db [] eq_refl) in Hcall.
  discriminate Hcall.
Qed.

(** C6, amended. When no stored reading matches feeder [f] within day [d],
    [low_by_date(f, d)] returns the no-data value [None] and raises nothing
    as long as [f] lies within SQLite's integers, [-2^63 <= f < 2^63]; for
    an [f] outside them the call raises [OverflowError]. Either way it does
    so whatever [feeders] holds, [f] or not, or without that table: the
    query never reads it. The [temps] table has to exist. *)
Theorem low_by_date_call_no_data today_lo today_hi f d db rows :
  db !! "temps" = Some rows ->
  selected (call_query today_lo today_hi f d) rows = [] ->
  low_by_date_call today_lo today_hi f d db
  = (if in_int64 f then Ok None else Raise overflow, db) /\
  (forall frows,
      fst (low_by_date_call today_lo today_hi f d (<["feeders" := frows]> db))
      = if in_int64 f then Ok None else Raise overflow) /\
  fst (low_by_date_call today_lo today_hi f d (delete "feeders" db))
  = if in_int64 f then Ok None else Raise overflow.
Proof.
  intros Hrows Hnone. split; [|split].
  - by rewrite (low_by_date_call_cases _ _ _ _ db rows Hrows), Hnone.
  - intros frows.
    assert (<["feeders" := frows]> db !! "temps" = Some rows) as Hl
      by (by rewrite lookup_insert_ne).
    rewrite (low_by_date_call_cases _ _ _ _ _ rows Hl), Hnone.
    by destruct (in_int64 f).
  - assert (delete "feeders" db !! "temps" = Some rows) as Hl
      by (by rewrite lookup_delete_ne).
    rewrite (low_by_date_call_cases _ _ _ _ _ rows Hl), Hnone.
    by destruct (in_int64 f).
Qed.

Lemma low_by_date_call_no_data_witness :
  known_feeder fresh_db 5 = false /\
  low_by_date_call (mkdate 2023 1 15) (mkdate 2023 1 15) 5 None fresh_db
  = (Ok None, fresh_db) /\
  low_by_date_call (mkdate 2023 1 15) (mkdate 2023 1 15) (2 ^ 63) None
    fresh_db
  = (Raise overflow, fresh_db).
Proof.
  split; [reflexivity|]. split.
  - apply (low_by_date_call_no_data (mkdate 2023 1 15) (mkdate 2023 1 15) 5
             None fresh_db []);
      reflexivity.
  - apply (low_by_date_call_no_data (mkdate 2023 1 15) (mkdate 2023 1 15)
             (2 ^ 63) None fresh_db []);
      reflexivity.
Defined.

(** The query statement leaves the connection's view of the database as
    it found it, whether it returns or raises. *)
Lemma execute_scalar_reads_only conn q : snd (execute_scalar conn q) = conn.
Proof.
  unfold execute_scalar. by destruct (conn_db conn !! tbl_name temps).
Qed.

(** C9. [low_by_date] changes nothing: the database after the call,
    [feeders] and [temps] included, is the database before it, whether the
    call returns or raises. This is not only the rollback at the end of the
    [with] block: the query itself writes nothing, so the database would be
    the same had the block committed, as [engine.begin()] does. *)
Theorem low_by_date_writes_nothing today_lo today_hi f d db :
  snd (low_by_date_call today_lo today_hi f d db) = db /\
  snd (low_by_date today_lo f d db) = db /\
  snd (engine_begin engine
         (fun conn =>
            execute_scalar conn (call_query today_lo today_hi f d)) db)
  = db /\
  snd (engine_begin engine
         (fun conn => execute_scalar conn (day_query f (default today_lo d)))
         db)
  = db.
Proof.
  split; [done|]. split; [done|]. unfold engine_begin. split.
  - pose proof (execute_scalar_reads_only (mkConn engine db)
                  (call_query today_lo today_hi f d)) as Hread.
    destruct (execute_scalar _ _) as [[res|x] conn']; [|done].
    cbn in Hread. by subst conn'.
  - pose proof (execute_scalar_reads_only (mkConn engine db)
                  (day_query f (default today_lo d))) as Hread.
    destruct (execute_scalar _ _) as [[res|x] conn']; [|done].
    cbn in Hread. by subst conn'.
Qed.

(** C10. The no-data value of [low_by_date] is [None], and it is also what
    the call returns when readings match the feeder and the day but every
    one of them has a NULL celsius: the result is the one of the same call
    on a [temps] table without rows. *)
Theorem low_by_date_null_only today f d db rows :
  db !! "temps" = Some rows ->
  (forall r, In r (aggregated db f (default today d)) -> t_celsius r = None) ->
  fst (low_by_date today f d db) = Ok None /\
  fst (low_by_date today f d (<["temps" := []]> db))
  = fst (low_by_date today f d db).
Proof.
  intros Hrows Hnull.
  rewrite (low_by_date_eq db rows Hrows).
  rewrite (low_by_date_eq _ _ (lookup_insert_eq _ _ _)).
  cbn [fst]. assert (sql_min (map t_celsius
                       (aggregated db f (default today d))) = None) as ->.
  { apply sql_min_None. intros v Hv.
    apply in_map_iff in Hv as (r & <- & Hr). by apply Hnull. }
  split; [done|]. unfold aggregated. by rewrite lookup_insert_eq.
Qed.

Lemma low_by_date_null_only_witness :
  aggregated null_db 1 (dt_date now) = [null_reading] /\
  fst (low_by_date (dt_date now) 1 None null_db) = Ok None /\
  fst (low_by_date (dt_date now) 1 None (<["temps" := []]> null_db))
  = fst (low_by_date (dt_date now) 1 None null_db).
Proof.
  split; [reflexivity|].
  apply (low_by_date_null_only (dt_date now) 1 None null_db
           [TempRow null_reading]);
    [reflexivity|].
  intros r' [<-|[]]. reflexivity.
Defined.

(** ** Schema catalog *)

Lemma create_all_twice md e db :
  create_all md e (create_all md e db) = create_all md e db.
Proof.
  apply map_eq. intros name.
  rewrite (create_all_lookup md e (create_all _ _ _)).
  rewrite (create_all_lookup md e db).
  destruct (db !! name); [done|]. by case_bool_decide.
Qed.

(** C8. [metadata.create_all(engine)] creates, empty, the declared tables
    the database lacks and leaves every table it has as it is; run twice, it
    yields the database, and so the table set, of one run. *)
Theorem create_all_idempotent db :
  (forall name,
      create_all metadata engine db !! name =
        match db !! name with
        | Some rows => Some rows
        | None => if bool_decide (name ∈ ["feeders"; "temps"])
                  then Some [] else None
        end) /\
  dom (create_all metadata engine db) = dom db ∪ {["feeders"; "temps"]} /\
  create_all metadata engine (create_all metadata engine db)
  = create_all metadata engine db /\
  dom (create_all metadata engine (create_all metadata engine db))
  = dom (create_all metadata engine db).
Proof.
  assert (forall name,
             create_all metadata engine db !! name =
               match db !! name with
               | Some rows => Some rows
               | None => if bool_decide (name ∈ ["feeders"; "temps"])
                         then Some [] else None
               end) as Hlookup.
  { intros name. apply create_all_lookup. }
  split; [exact Hlookup|]. split; [|split].
  - apply set_eq. intros name.
    rewrite elem_of_union, !elem_of_dom, Hlookup.
    destruct (db !! name) as [rows|] eqn:Hl.
    + split; [intros _; left|]; by eauto.
    + case_bool_decide as Hn.
      * split; [intros _; right|by eauto].
        by apply declared_tables.
      * split; [by intros []|]. intros [[]|Hin]; [done|].
        exfalso. by apply Hn, declared_tables.
  - apply create_all_twice.
  - by rewrite create_all_twice.
Qed.

(** ** Invariants *)

Section Invariants.

Lemma run_op_ts_present o db : ts_present db -> ts_present (run_op o db).
Proof.
  intros Hinv. destruct o as [|f data|today f d]; cbn [run_op].
  - intros rows r Hl. rewrite create_all_temps in Hl. injection Hl as <-.
    destruct (db !! "temps") as [rows0|] eqn:Hrows; cbn.
    + by apply (Hinv rows0).
    + intros [].
  - destruct (store_packet_on_cases engine f data db)
      as [[x Hx]|(rows0 & Hrows & Hs)]; unfold store_packet.
    + by rewrite Hx.
    + destruct (store_packet_on_Ok_inv _ _ _ _ _ Hs)
        as (rows1 & t & _ & Hts & _).
      rewrite Hs. cbn [snd]. intros rows r Hl.
      rewrite lookup_insert_eq in Hl. injection Hl as <-.
      intros [Hin|[Heq|[]]]%in_app_or.
      * by apply (Hinv rows0).
      * injection Heq as <-. cbn. by rewrite Hts.
  - done.
Qed.

Lemma run_op_no_feeders o db : no_feeders db -> no_feeders (run_op o db).
Proof.
  intros Hinv. destruct o as [|f data|today f d]; cbn [run_op].
  - intros rows Hl. rewrite create_all_feeders in Hl. injection Hl as <-.
    destruct (db !! "feeders") as [rows0|] eqn:Hrows; cbn; [|done].
    by apply Hinv.
  - destruct (store_packet_on_cases engine f data db)
      as [[x Hx]|(rows0 & Hrows & Hs)]; unfold store_packet.
    + by rewrite Hx.
    + rewrite Hs. cbn [snd]. intros rows Hl.
      rewrite lookup_insert_ne in Hl by done. by apply Hinv.
  - done.
Qed.

End Invariants.

Lemma notebook_db_reachable : reachable notebook_db.
Proof. apply reach_step, reach_step, reach_init. Qed.

(** C7, as the spec states it, fails: after the notebook's own cells the
    one row of [temps] names feeder 1, and [feeders] is empty. *)
Lemma referential_integrity_false :
  ~ (forall db, reachable db -> references_one_feeder db /\ ts_present db).
Proof.
  intros H. destruct (H notebook_db notebook_db_reachable) as [Href _].
  destruct (Href [TempRow (mkTemp 1 (Some 1) (Some now) (Some (49 # 2)%Q)
                             (Some "overcast"))]
              (mkTemp 1 (Some 1) (Some now) (Some (49 # 2)%Q)
                 (Some "overcast")) eq_refl (or_introl eq_refl))
    as (k & _ & Hlen).
  discriminate Hlen.
Qed.

(** C7, amended. In every database the program's operations produce, every
    row of [temps] has a timestamp. The reference to [feeders] is declared
    and not enforced: no operation stores a feeder, so [feeders] stays
    without rows whatever [temps] holds. *)
Theorem reachable_invariant db :
  reachable db -> ts_present db /\ no_feeders db.
Proof.
  induction 1 as [|db o _ [IHts IHf]].
  - split; intros rows; rewrite lookup_empty; discriminate.
  - split; [by apply run_op_ts_present|by apply run_op_no_feeders].
Qed.

Lemma reachable_invariant_witness :
  ts_present notebook_db /\ no_feeders notebook_db.
Proof.
  apply (reachable_invariant notebook_db).
  apply reach_step, reach_step, reach_init.
Defined.

(** * Part IV: further properties of the code *)

(** ** Helper facts *)

Section MoreAggregate.



(** A NULL at the end changes nothing. *)
Lemma sql_min_snoc_None vs : sql_min (vs ++ [None]) = sql_min vs.
Proof. induction vs as [|[x|] vs IH]; cbn; by rewrite ?IH. Qed.

End MoreAggregate.

Section MoreOperations.

(** The row a packet becomes matches a query of another feeder or of
    another day never. *)
Lemma where_clause_other f data rows f' d' :
  (f' <> f \/ forall T, ts data = Some T -> dt_date T <> d') ->
  where_clause (day_query f' d') (new_reading rows (dict_feeder_id f data))
  = false.
Proof.
  intros Hother. unfold where_clause, day_query, sql_eq, sql_between; cbn.
  destruct (Z.eqb_spec f f') as [->|Hne]; [|done]. cbn.
  destruct Hother as [Hf|Hd]; [done|].
  destruct (ts data) as [T|]; [|done].
  apply not_true_is_false. rewrite andb_true_iff. intros [H1 H2].
  apply (Hd T eq_refl). by apply between_day_date.
Qed.

End MoreOperations.

Lemma increasing_NoDup (l : list Z) : StronglySorted Z.lt l -> NoDup l.
Proof.
  induction l as [|x l IH]; [constructor|].
  rewrite StronglySorted_cons. intros [Hlt Hs]. apply NoDup_cons.
  split; [|by apply IH].
  intros Hin. rewrite List.Forall_forall in Hlt.
  apply list_elem_of_In in Hin. specialize (Hlt x Hin). lia.
Qed.

Section IdentityMap.

Context {A : Type} (key : A -> Z).

(** Rows with distinct keys, none loaded yet, come back as they are. *)
Lemma identity_map_distinct seen rs :
  NoDup (key <$> rs) ->
  (forall r, In r rs -> seen !! key r = None) ->
  identity_map key seen rs = rs.
Proof.
  revert seen. induction rs as [|r rs IH]; intros seen Hnd Hseen; [done|].
  cbn. rewrite (Hseen r (or_introl eq_refl)).
  rewrite fmap_cons in Hnd. apply NoDup_cons in Hnd as [Hnotin Hnd].
  f_equal. apply IH; [done|]. intros r' Hin.
  rewrite lookup_insert_ne; [by apply Hseen; right|].
  intros Heq. apply Hnotin. rewrite Heq. apply list_elem_of_fmap.
  exists r'. by rewrite list_elem_of_In.
Qed.

End IdentityMap.

Section OrmCell.

(** The cell on a database with both tables. *)
Lemma orm_cell_eq db rows frows :
  db !! "temps" = Some rows ->
  db !! "feeders" = Some frows ->
  orm_cell db
  = (([PrintTemps (identity_map t_id ∅ (readings rows));
       PrintFeeders (identity_map f_id ∅ (feeder_rows frows))], Ok tt), db).
Proof.
  intros Hrows Hfrows.
  unfold orm_cell, with_session, select_temps, select_feeders.
  change (tbl_name feeders) with "feeders". rewrite temps_name.
  cbn [conn_db fst]. rewrite Hrows. cbn [conn_db]. by rewrite Hfrows.
Qed.

End OrmCell.

(** ** Ingest and query together *)

(** X3. A stored reading touches the answers for its own feeder and day
    only: [low_by_date(f', d')] returns the same after [store_packet(f, ...)]
    as before it whenever [f'] is another feeder or [d'] is not the date of
    the packet's timestamp. *)
Theorem store_packet_frame today f data db f' d' :
  (f' <> f \/ forall T, ts data = Some T -> dt_date T <> d') ->
  fst (low_by_date today f' (Some d') (snd (store_packet f data db)))
  = fst (low_by_date today f' (Some d') db).
Proof.
  intros Hother.
  destruct (store_packet_on_cases engine f data db)
    as [[x Hx]|(rows & Hrows & Hs)]; unfold store_packet.
  - by rewrite Hx.
  - rewrite Hs. cbn [snd].
    rewrite (low_by_date_eq _ _ (lookup_insert_eq _ _ _)),
      (low_by_date_eq db rows Hrows).
    cbn [fst default from_option id].
    rewrite (aggregated_insert db rows Hrows).
    rewrite (where_clause_other f data rows f' d' Hother).
    by rewrite app_nil_r.
Qed.

Lemma store_packet_frame_witness :
  fst (low_by_date (mkdate 2023 1 15) 2 (Some (mkdate 2023 1 15))
         (snd (store_packet 1 colder notebook_db)))
  = fst (low_by_date (mkdate 2023 1 15) 2 (Some (mkdate 2023 1 15))
           notebook_db).
Proof.
  apply (store_packet_frame (mkdate 2023 1 15) 1 colder notebook_db 2
           (mkdate 2023 1 15)).
  left. discriminate.
Defined.




(** X5. A reading stored without a temperature (no [celsius] key, or
    [None]) changes no answer of [low_by_date], for any feeder and day. *)
Theorem store_packet_null_celsius today f T cond db f' d :
  fst (low_by_date today f' d (snd (store_packet f (mkPacket T None cond) db)))
  = fst (low_by_date today f' d db).
Proof.
  destruct (store_packet_on_cases engine f (mkPacket T None cond) db)
    as [[x Hx]|(rows & Hrows & Hs)]; unfold store_packet.
  - by rewrite Hx.
  - rewrite Hs. cbn [snd].
    rewrite (low_by_date_eq _ _ (lookup_insert_eq _ _ _)),
      (low_by_date_eq db rows Hrows).
    cbn [fst]. rewrite (aggregated_insert db rows Hrows).
    destruct (where_clause _ _); [|by rewrite app_nil_r].
    rewrite map_app. cbn [map new_reading dict_feeder_id t_celsius p_celsius
                            celsius].
    by rewrite sql_min_snoc_None.
Qed.

(** X6. Each reading counts for one feeder and one day: a stored reading
    of feeder [k] with a valid timestamp [x] and a temperature bounds the
    answer of [low_by_date(f, d)] when [f] is [k] and [d] is the date of
    [x], whatever the time of day; for every other feeder or day the answer
    is the one of the database without the reading. *)
Theorem reading_counts_once today db pre r post k x c f d :
  db !! "temps" = Some (pre ++ TempRow r :: post)%list ->
  t_feeder_id r = Some k ->
  t_ts r = Some x ->
  t_celsius r = Some c ->
  valid_time (dt_time x) = true ->
  (f = k /\ d = dt_date x ->
   exists m, fst (low_by_date today f (Some d) db) = Ok (Some m) /\
             (m <= c)%Q) /\
  (~ (f = k /\ d = dt_date x) ->
   fst (low_by_date today f (Some d) db)
   = fst (low_by_date today f (Some d)
            (<["temps" := (pre ++ post)%list]> db))).
Proof.
  intros Hrows Hk Hx Hc Hv.
  pose proof (where_clause_valid r f d k x Hk Hx Hv) as Hw. split.
  - intros [-> ->]. rewrite !bool_decide_eq_true_2 in Hw by done.
    by apply (low_by_date_included db pre post r Hrows today k (dt_date x) c).
  - intros Hne. apply (low_by_date_excluded db pre post r Hrows).
    rewrite Hw. apply andb_false_iff.
    destruct (decide (k = f)) as [<-|Hkf].
    + right. apply bool_decide_eq_false_2. intros <-. by apply Hne.
    + left. by apply bool_decide_eq_false_2.
Qed.

Lemma reading_counts_once_witness :
  valid_time (mktime 23 59 59 0) = true /\
  exists m,
    fst (low_by_date new_years_eve 7 (Some new_years_eve) new_year_db)
    = Ok (Some m) /\ (m <= 3)%Q.
Proof.
  split; [reflexivity|].
  apply (proj1 (reading_counts_once new_years_eve new_year_db [] last_second
                  [TempRow first_second] 7
                  (combine new_years_eve (mktime 23 59 59 0)) 3%Q 7
                  new_years_eve eq_refl eq_refl eq_refl eq_refl eq_refl)).
  done.
Defined.

(** ** What no operation does *)

(** X7. No operation drops a table, deletes a row or changes one: after
    any operation every table that existed holds the rows it held, in
    order, followed by at most one new row. *)
Theorem run_op_append_only o db name rows :
  db !! name = Some rows ->
  exists extra,
    run_op o db !! name = Some (rows ++ extra)%list /\
    (length extra <= 1)%nat.
Proof.
  intros Hl. destruct o as [|f data|today f d]; cbn [run_op].
  - exists []. rewrite create_all_lookup, Hl, app_nil_r.
    split; [done|cbn; lia].
  - destruct (store_packet_on_cases engine f data db)
      as [[x Hx]|(rows0 & Hrows & Hs)]; unfold store_packet.
    + exists []. rewrite Hx, app_nil_r. split; [done|cbn; lia].
    + rewrite Hs. cbn [snd].
      destruct (decide (name = "temps")) as [->|Hne].
      * rewrite Hrows in Hl. injection Hl as ->. eexists.
        rewrite lookup_insert_eq. split; [done|cbn; lia].
      * exists []. rewrite lookup_insert_ne, Hl, app_nil_r by done.
        split; [done|cbn; lia].
  - exists []. rewrite app_nil_r. split; [done|cbn; lia].
Qed.

Lemma run_op_append_only_witness :
  exists extra,
    run_op (StorePacket 1 colder) notebook_db !! "temps"
    = Some ([TempRow overcast_row] ++ extra)%list /\
    (length extra <= 1)%nat.
Proof.
  apply (run_op_append_only (StorePacket 1 colder) notebook_db "temps").
  reflexivity.
Defined.

(** ** Schema catalog *)

(** X8. [metadata.create_all(engine)] leaves the database as it is exactly
    when it already has a [feeders] and a [temps] table. *)
Theorem create_all_fixpoint db :
  create_all metadata engine db = db <->
  has_table db "feeders" = true /\ has_table db "temps" = true.
Proof.
  unfold has_table. split.
  - intros Heq.
    pose proof (create_all_feeders engine db) as Hf.
    pose proof (create_all_temps engine db) as Ht.
    rewrite Heq in Hf, Ht. by rewrite Hf, Ht.
  - intros [Hf Ht]. apply map_eq. intros name.
    rewrite create_all_lookup. destruct (db !! name) eqn:Hl; [done|].
    rewrite bool_decide_eq_false_2; [done|].
    cbn. rewrite !elem_of_cons, elem_of_nil. intros [->|[->|[]]].
    + by rewrite Hl in Hf.
    + by rewrite Hl in Ht.
Qed.

(** ** The ORM cell *)

(** X11. On a database with both tables, each with its rows in increasing
    key order, the ORM cell prints every stored reading and every stored
    feeder, once each and in this order, and changes nothing. *)
Theorem orm_cell_lists_rows db rows frows :
  db !! "temps" = Some rows ->
  db !! "feeders" = Some frows ->
  StronglySorted Z.lt (t_id <$> readings rows) ->
  StronglySorted Z.lt (f_id <$> feeder_rows frows) ->
  orm_cell db
  = (([PrintTemps (readings rows); PrintFeeders (feeder_rows frows)], Ok tt),
     db).
Proof.
  intros Hrows Hfrows Hs Hfs.
  rewrite (orm_cell_eq db rows frows Hrows Hfrows).
  by rewrite !identity_map_distinct by (done || by apply increasing_NoDup).
Qed.

Lemma orm_cell_lists_rows_witness :
  orm_cell notebook_db
  = (([PrintTemps [overcast_row]; PrintFeeders []], Ok tt),
     notebook_db).
Proof.
  apply (orm_cell_lists_rows notebook_db
           [TempRow overcast_row] []);
    [reflexivity|reflexivity|repeat constructor|constructor].
Defined.

(** ** Before the schema is applied *)

(** X13. On a database without a [temps] table (the notebook's cells run
    before [metadata.create_all]) [store_packet], [low_by_date] and the ORM
    cell all raise [OperationalError], the cell having printed nothing, and
    the database stays as it was. *)
Theorem without_temps_table today f d data db :
  db !! "temps" = None ->
  store_packet f data db
  = (Raise (OperationalError "no such table: temps"), db) /\
  low_by_date today f d db
  = (Raise (OperationalError "no such table: temps"), db) /\
  orm_cell db = (([], Raise (OperationalError "no such table: temps")), db).
Proof.
  intros Hno. split; [|split].
  - by apply store_packet_no_table.
  - by apply low_by_date_no_table.
  - unfold orm_cell, with_session, select_temps. rewrite temps_name.
    cbn [conn_db]. by rewrite Hno.
Qed.

Lemma without_temps_table_witness :
  store_packet 1 overcast ∅
  = (Raise (OperationalError "no such table: temps"), ∅) /\
  low_by_date (mkdate 2023 1 15) 1 None ∅
  = (Raise (OperationalError "no such table: temps"), ∅) /\
  orm_cell ∅ = (([], Raise (OperationalError "no such table: temps")), ∅).
Proof.
  apply (without_temps_table (mkdate 2023 1 15) 1 None overcast ∅).
  reflexivity.
Defined.
